(** * University timetable management: triggers and scheduling algorithm

  A shallow embedding of the two executable artefacts of the project's
  design document: the MySQL triggers guarding the [availability] and
  [timetables] tables, and the scheduling algorithm
  ([generate_timetable] and the functions it calls). *)

From Stdlib Require Import ZArith List Bool String Lia Permutation Sorted.
From Equations Require Import Equations.
From Equations.Prop Require Import Logic.
Import ListNotations.
Open Scope Z_scope.

(** ** Relational schema *)

Module Schema.

(** [TIME] columns, in seconds since midnight. *)
Definition time := Z.

Definition hm (h m : Z) : time := h * 3600 + m * 60.

(** [ENUM('monday', ..., 'sunday')] *)
Inductive day_of_week :=
| monday | tuesday | wednesday | thursday | friday | saturday | sunday.

Definition day_eqb (a b : day_of_week) : bool :=
  match a, b with
  | monday, monday | tuesday, tuesday | wednesday, wednesday
  | thursday, thursday | friday, friday | saturday, saturday
  | sunday, sunday => true
  | _, _ => false
  end.

(** [ENUM('lecture', 'tutorial', 'lab')] *)
Inductive component_type := lecture | tutorial | lab.

Definition component_eqb (a b : component_type) : bool :=
  match a, b with
  | lecture, lecture | tutorial, tutorial | lab, lab => true
  | _, _ => false
  end.

(** [ENUM('weekday', 'weekend', 'both')] *)
Inductive availability_type := weekday | weekend | both.

(** Rows of [batches]; the four window columns carry a DEFAULT but no
    NOT NULL, so they are nullable. *)
Record batch_row := {
  b_id : Z;
  b_name : string;
  weekday_start_time : option time;
  weekday_end_time : option time;
  weekend_start_time : option time;
  weekend_end_time : option time }.

(** Rows of [staff_assignments]. *)
Record staff_assignment_row := {
  sa_id : Z;
  sa_staff_id : Z;
  sa_subject_id : Z;
  sa_batch_id : Z }.

(** Rows of [availability]. *)
Record availability_row := {
  a_id : Z;
  a_staff_id : Z;
  a_day_of_week : day_of_week;
  a_start_time : time;
  a_end_time : time;
  a_availability_type : availability_type;
  a_is_available : bool }.

(** Rows of [timetables]; [room_id] is the only nullable column read
    here. *)
Record timetable_row := {
  t_id : Z;
  t_batch_id : Z;
  t_subject_id : Z;
  t_staff_id : Z;
  t_day_of_week : day_of_week;
  t_start_time : time;
  t_end_time : time;
  t_component_type : component_type;
  t_room_id : option Z }.

End Schema.

(** ** SQL fragments used by the triggers *)

Module Sql.

(** Outcome of a BEFORE INSERT trigger: the row goes through, or
    [SIGNAL SQLSTATE '45000'] aborts the statement with a message. *)
Inductive trigger_result :=
| Accepted
| Signalled (message_text : string).

(** [a BETWEEN x AND y] on non-null operands: [x <= a AND a <= y]. *)
Definition between (a x y : Z) : bool := (x <=? a) && (a <=? y).

(** Three-valued comparisons: NULL on either side gives NULL. *)
Definition sql_lt (a b : option Z) : option bool :=
  match a, b with
  | Some x, Some y => Some (x <? y)
  | _, _ => None
  end.

Definition sql_gt (a b : option Z) : option bool := sql_lt b a.

Definition sql_or (p q : option bool) : option bool :=
  match p, q with
  | Some true, _ | _, Some true => Some true
  | Some false, Some false => Some false
  | _, _ => None
  end.

(** An [IF] branch is taken only when its condition is TRUE. *)
Definition sql_true (p : option bool) : bool :=
  match p with Some true => true | _ => false end.

End Sql.

(** ** The triggers *)

Module Triggers.
Import Schema Sql.

(** *** [validate_availability_times] *)

(** [SELECT batch_id FROM staff_assignments WHERE staff_id = ? LIMIT 1]:
    the first matching row in scan order, NULL when there is none. *)
Definition limit1_batch_id (assignments : list staff_assignment_row)
           (staff : Z) : option Z :=
  option_map sa_batch_id
    (find (fun r => sa_staff_id r =? staff) assignments).

(** [FROM batches WHERE id = (subquery)]: [id = NULL] selects nothing;
    [id] is the primary key, so at most one row matches. *)
Definition select_batch (batches : list batch_row) (key : option Z)
  : option batch_row :=
  match key with
  | None => None
  | Some k => find (fun b => b_id b =? k) batches
  end.

(** The pair of columns chosen by the [IF NEW.availability_type =
    'weekday' ... ELSE ...] of the trigger. *)
Definition window_columns (ty : availability_type) (b : batch_row)
  : option time * option time :=
  match ty with
  | weekday => (weekday_start_time b, weekday_end_time b)
  | _ => (weekend_start_time b, weekend_end_time b)
  end.

(** [SELECT ... INTO batch_start, batch_end]: with no row selected the
    two variables keep their initial NULL. *)
Definition batch_window (ty : availability_type)
           (assignments : list staff_assignment_row)
           (batches : list batch_row) (staff : Z)
  : option time * option time :=
  match select_batch batches (limit1_batch_id assignments staff) with
  | Some b => window_columns ty b
  | None => (None, None)
  end.

(** The two validation steps, given the values of [batch_start] and
    [batch_end]. *)
Definition validate_against (w : option time * option time)
           (NEW : availability_row) : trigger_result :=
  let (batch_start, batch_end) := w in
  if sql_true (sql_or (sql_lt (Some (a_start_time NEW)) batch_start)
                      (sql_gt (Some (a_end_time NEW)) batch_end))
  then Signalled "Availability time must be within batch constraints"
  else if a_end_time NEW <=? a_start_time NEW
  then Signalled "Start time must be before end time"
  else Accepted.

Definition validate_availability_times
           (assignments : list staff_assignment_row)
           (batches : list batch_row)
           (NEW : availability_row) : trigger_result :=
  validate_against
    (batch_window (a_availability_type NEW) assignments batches
                  (a_staff_id NEW))
    NEW.

(** *** [check_timetable_conflicts] *)

(** The time condition shared by the two COUNT queries. *)
Definition time_clash (NEW r : timetable_row) : bool :=
  between (t_start_time NEW) (t_start_time r) (t_end_time r)
  || between (t_end_time NEW) (t_start_time r) (t_end_time r)
  || between (t_start_time r) (t_start_time NEW) (t_end_time NEW).

Definition staff_conflict (NEW r : timetable_row) : bool :=
  (t_staff_id r =? t_staff_id NEW)
  && day_eqb (t_day_of_week r) (t_day_of_week NEW)
  && negb (t_id r =? t_id NEW)
  && time_clash NEW r.

Definition batch_conflict (NEW r : timetable_row) : bool :=
  (t_batch_id r =? t_batch_id NEW)
  && day_eqb (t_day_of_week r) (t_day_of_week NEW)
  && negb (t_id r =? t_id NEW)
  && time_clash NEW r.

(** [SELECT COUNT( * ) INTO conflict_count FROM timetables WHERE ...] *)
Definition conflict_count (cond : timetable_row -> bool)
           (timetables : list timetable_row) : Z :=
  Z.of_nat (List.length (filter cond timetables)).

Definition check_timetable_conflicts
           (timetables : list timetable_row)
           (NEW : timetable_row) : trigger_result :=
  if 0 <? conflict_count (staff_conflict NEW) timetables
  then Signalled "Staff scheduling conflict detected"
  else if 0 <? conflict_count (batch_conflict NEW) timetables
  then Signalled "Batch scheduling conflict detected"
  else Accepted.

End Triggers.

(** ** The scheduling algorithm *)

Module Scheduler.
Import Schema.

(** The algorithm is written against a number of functions and objects
    that the design document names but never defines.  They are kept as
    the fields of one interface; every result below holds for all of
    its implementations.  Functions named [get_], [is_], [has_], [can_]
    and [creates_] only read their arguments; [assign_slot] and
    [reschedule_subject] update the timetable dictionary, which is
    threaded explicitly. *)
Class Helpers := {
  (** objects *)
  Subject : Type;
  Subject_eq_dec : forall x y : Subject, {x = y} + {x <> y};
  subject_id : Subject -> Z;
  Slot : Type;
  hour : Slot -> Z;
  Staff : Type;
  StaffAssignments : Type;
  Availability : Type;
  Constraints : Type;
  Timetable : Type;
  (** the literal [{}] *)
  empty_timetable : Timetable;
  (** functions *)
  sort_subjects_by_priority : list Subject -> list Subject;
  get_available_staff : Z -> StaffAssignments -> Staff;
  get_batch_constraints : Z -> Constraints;
  get_component_duration : component_type -> Z;
  get_available_slots : Staff -> Availability -> Constraints -> list Slot;
  is_slot_available : Slot -> Z -> Timetable -> bool;
  has_consecutive_slots : Slot -> Staff -> Timetable -> bool;
  creates_gap : Slot -> Staff -> Timetable -> bool;
  is_preferred_time : Slot -> Staff -> bool;
  assign_slot : Subject -> component_type -> Slot -> Timetable -> Timetable;
  can_reschedule : Subject -> Timetable -> bool;
  reschedule_subject : Subject -> Timetable -> Timetable }.

Section Algorithm.
Context {H : Helpers}.

(** *** [calculate_slot_score] *)

Definition calculate_slot_score (slot : Slot) (component : component_type)
           (staff : Staff) (timetable : Timetable) : Z :=
  let score := 0 in
  let score :=
    if component_eqb component lecture && (hour slot <? 12)
    then score + 10 else score in
  let score :=
    if has_consecutive_slots slot staff timetable
    then score + 15 else score in
  let score :=
    if creates_gap slot staff timetable
    then score - 5 else score in
  let score :=
    if is_preferred_time slot staff
    then score + 20 else score in
  score.

(** *** [find_optimal_slot] *)

(** [scored_slots.sort(key=lambda x: x[1], reverse=True)]: the sort
    compares the scores only and is stable, so entries with the same
    score keep the order in which they were appended. *)
Fixpoint insert_by_score (x : Slot * Z) (l : list (Slot * Z))
  : list (Slot * Z) :=
  match l with
  | [] => [x]
  | y :: l' =>
      if snd x <? snd y then y :: insert_by_score x l' else x :: y :: l'
  end.

Fixpoint sort_by_score (l : list (Slot * Z)) : list (Slot * Z) :=
  match l with
  | [] => []
  | x :: l' => insert_by_score x (sort_by_score l')
  end.

(** The order the sort establishes, and the entries of a given score. *)
Definition score_ge (p q : Slot * Z) : Prop := snd q <= snd p.

Definition with_score (v : Z) (p : Slot * Z) : bool := snd p =? v.

Definition score_slots (available_slots : list Slot)
           (component : component_type) (staff : Staff)
           (timetable : Timetable) : list (Slot * Z) :=
  map (fun slot =>
         (slot, calculate_slot_score slot component staff timetable))
      available_slots.

Definition find_optimal_slot (component : component_type) (staff : Staff)
           (availability : Availability) (constraints : Constraints)
           (timetable : Timetable) : option Slot :=
  let duration := get_component_duration component in
  let available_slots :=
    get_available_slots staff availability constraints in
  let scored_slots :=
    sort_by_score (score_slots available_slots component staff timetable) in
  option_map fst
    (find (fun p => is_slot_available (fst p) duration timetable)
          scored_slots).

(** *** [schedule_component] and [schedule_subject]

    [find_optimal_slot] returns a slot object or [None]; the test
    [if optimal_slot:] succeeds on every slot object. *)

Definition schedule_component (subject : Subject)
           (component : component_type) (batch_id : Z)
           (staff_assignments : StaffAssignments)
           (availability : Availability) (timetable : Timetable)
  : bool * Timetable :=
  let available_staff :=
    get_available_staff (subject_id subject) staff_assignments in
  let batch_constraints := get_batch_constraints batch_id in
  match find_optimal_slot component available_staff availability
                          batch_constraints timetable with
  | Some optimal_slot =>
      (true, assign_slot subject component optimal_slot timetable)
  | None => (false, timetable)
  end.

(** The [for component in components] loop, left at the first
    component that cannot be scheduled. *)
Fixpoint schedule_components (components : list component_type)
         (subject : Subject) (batch_id : Z)
         (staff_assignments : StaffAssignments)
         (availability : Availability) (timetable : Timetable)
  : bool * Timetable :=
  match components with
  | [] => (true, timetable)
  | component :: rest =>
      let (ok, timetable') :=
        schedule_component subject component batch_id staff_assignments
                           availability timetable in
      if ok
      then schedule_components rest subject batch_id staff_assignments
                               availability timetable'
      else (false, timetable')
  end.

Definition schedule_subject (subject : Subject) (batch_id : Z)
           (staff_assignments : StaffAssignments)
           (availability : Availability) (timetable : Timetable)
  : bool * Timetable :=
  schedule_components [lecture; tutorial; lab] subject batch_id
                      staff_assignments availability timetable.

(** *** [resolve_conflicts] *)

(** [conflicts.remove(conflict)]: drops the first equal element. *)
Fixpoint remove_first (x : Subject) (l : list Subject) : list Subject :=
  match l with
  | [] => []
  | y :: l' => if Subject_eq_dec y x then l' else y :: remove_first x l'
  end.

(** The [for conflict in conflicts] loop.  The list is modified while
    it is being traversed: the iterator is a position [i] into the
    current list, advanced by one after every element, and the loop
    ends when [i] reaches the current length. *)
Equations? resolve_loop (i : nat) (conflicts : list Subject)
          (timetable : Timetable) : list Subject * Timetable
  by wf (List.length conflicts - i)%nat lt :=
  resolve_loop i conflicts timetable
    with inspect (nth_error conflicts i) := {
    | exist _ None _ => (conflicts, timetable)
    | exist _ (Some conflict) _
        with inspect (can_reschedule conflict timetable) := {
        | exist _ true _ =>
            resolve_loop (S i) (remove_first conflict conflicts)
                         (reschedule_subject conflict timetable)
        | exist _ false _ => resolve_loop (S i) conflicts timetable } }.
Proof.
  - assert (i < List.length conflicts)%nat
      by (apply nth_error_Some; congruence).
    assert (List.length (remove_first conflict conflicts)
            <= List.length conflicts)%nat.
    { clear. induction conflicts as [|y l IH]; simpl; [lia|].
      destruct (Subject_eq_dec y conflict); simpl; lia. }
    lia.
  - assert (i < List.length conflicts)%nat
      by (apply nth_error_Some; congruence).
    lia.
Qed.

Definition resolve_conflicts (conflicts : list Subject)
           (timetable : Timetable) : bool * list Subject * Timetable :=
  let (conflicts', timetable') := resolve_loop 0 conflicts timetable in
  ((List.length conflicts' =? 0)%nat, conflicts', timetable').

(** *** [generate_timetable] *)

(** The [for subject in sorted_subjects] loop; the first component of
    the result is [None] where the pseudocode returns [None]. *)
Fixpoint generate_loop (sorted_subjects : list Subject) (batch_id : Z)
         (staff_assignments : StaffAssignments)
         (availability : Availability)
         (timetable : Timetable) (conflicts : list Subject)
  : option Timetable * list Subject :=
  match sorted_subjects with
  | [] => (Some timetable, conflicts)
  | subject :: rest =>
      let (success, timetable1) :=
        schedule_subject subject batch_id staff_assignments availability
                         timetable in
      if success
      then generate_loop rest batch_id staff_assignments availability
                         timetable1 conflicts
      else
        let conflicts1 := conflicts ++ [subject] in
        let '(resolved, conflicts2, timetable2) :=
          resolve_conflicts conflicts1 timetable1 in
        if resolved
        then generate_loop rest batch_id staff_assignments availability
                           timetable2 conflicts2
        else (None, conflicts2)
  end.

Definition generate_timetable (batch_id : Z) (subjects : list Subject)
           (staff_assignments : StaffAssignments)
           (availability : Availability)
  : option Timetable * list Subject :=
  let timetable := empty_timetable in
  let conflicts := [] in
  let sorted_subjects := sort_subjects_by_priority subjects in
  generate_loop sorted_subjects batch_id staff_assignments availability
                timetable conflicts.

(** *** What it means for a subject to have been dealt with

    A subject is settled when [schedule_subject] placed its three
    components, or when it failed, [can_reschedule] accepted it and
    [reschedule_subject] was run on it. *)
Inductive settled (batch_id : Z) (staff_assignments : StaffAssignments)
          (availability : Availability)
  : Subject -> Timetable -> Timetable -> Prop :=
| settled_placed subject timetable slot_lecture slot_tutorial slot_lab :
    schedule_subject subject batch_id staff_assignments availability
                     timetable
    = (true,
       assign_slot subject lab slot_lab
         (assign_slot subject tutorial slot_tutorial
            (assign_slot subject lecture slot_lecture timetable))) ->
    settled batch_id staff_assignments availability subject timetable
      (assign_slot subject lab slot_lab
         (assign_slot subject tutorial slot_tutorial
            (assign_slot subject lecture slot_lecture timetable)))
| settled_rescheduled subject timetable timetable1 :
    schedule_subject subject batch_id staff_assignments availability
                     timetable = (false, timetable1) ->
    can_reschedule subject timetable1 = true ->
    settled batch_id staff_assignments availability subject timetable
      (reschedule_subject subject timetable1).

Inductive settled_all (batch_id : Z)
          (staff_assignments : StaffAssignments)
          (availability : Availability)
  : list Subject -> Timetable -> Timetable -> Prop :=
| settled_nil timetable :
    settled_all batch_id staff_assignments availability [] timetable
                timetable
| settled_cons subject rest timetable timetable1 timetable2 :
    settled batch_id staff_assignments availability subject timetable
            timetable1 ->
    settled_all batch_id staff_assignments availability rest timetable1
                timetable2 ->
    settled_all batch_id staff_assignments availability (subject :: rest)
                timetable timetable2.

End Algorithm.

End Scheduler.

(** ** A small implementation of the helper interface

    Enough of an implementation to run the algorithm on concrete
    inputs: subjects are their ids, staff assignments pair a staff id
    with a subject id, every availability record offers one slot, the
    timetable is the list of assignments made so far, and a slot is
    available when no assignment already sits on the same day and
    hour.  No bonus applies and nothing can be rescheduled. *)

Module Sample.
Import Schema Scheduler.

Record slot := {
  slot_day : day_of_week;
  slot_hour : Z;
  slot_staff : Z;
  slot_room : option Z }.

Definition entry : Type := Z * component_type * slot.

Definition eligible_staff (subject : Z) (assignments : list (Z * Z))
  : list Z :=
  map fst (filter (fun a => snd a =? subject) assignments).

Definition offered_slots (staff : list Z) (availability : list slot)
           (_ : unit) : list slot :=
  filter (fun s => existsb (Z.eqb (slot_staff s)) staff) availability.

Definition slot_free (s : slot) (_ : Z) (timetable : list entry) : bool :=
  negb (existsb (fun e => day_eqb (slot_day (snd e)) (slot_day s)
                          && (slot_hour (snd e) =? slot_hour s))
                timetable).

Definition helpers (duration : component_type -> Z) : Helpers := {|
  Subject := Z;
  Subject_eq_dec := Z.eq_dec;
  subject_id := fun s => s;
  Slot := slot;
  hour := slot_hour;
  Staff := list Z;
  StaffAssignments := list (Z * Z);
  Availability := list slot;
  Constraints := unit;
  Timetable := list entry;
  empty_timetable := [];
  sort_subjects_by_priority := fun l => l;
  get_available_staff := eligible_staff;
  get_batch_constraints := fun _ => tt;
  get_component_duration := duration;
  get_available_slots := offered_slots;
  is_slot_available := slot_free;
  has_consecutive_slots := fun _ _ _ => false;
  creates_gap := fun _ _ _ => false;
  is_preferred_time := fun _ _ => false;
  assign_slot := fun subject component s timetable =>
                   timetable ++ [(subject, component, s)];
  can_reschedule := fun _ _ => false;
  reschedule_subject := fun _ timetable => timetable |}.

Definition hourly (_ : component_type) : Z := 60.

Definition mon (h staff : Z) : slot :=
  {| slot_day := monday; slot_hour := h; slot_staff := staff;
     slot_room := None |}.

Definition tue (h staff : Z) : slot :=
  {| slot_day := tuesday; slot_hour := h; slot_staff := staff;
     slot_room := None |}.

End Sample.

(** ** Sample rows for the triggers *)

Module SampleRows.
Import Schema.

(** Staff 1 teaches batch 1 on Monday 09:00-10:00 in room 7. *)
Definition booked : timetable_row := {|
  t_id := 1; t_batch_id := 1; t_subject_id := 1; t_staff_id := 1;
  t_day_of_week := monday;
  t_start_time := hm 9 0; t_end_time := hm 10 0;
  t_component_type := lecture; t_room_id := Some 7 |}.

(** Another member of staff, another batch, the same room and hour. *)
Definition same_room : timetable_row := {|
  t_id := 0; t_batch_id := 2; t_subject_id := 2; t_staff_id := 2;
  t_day_of_week := monday;
  t_start_time := hm 9 0; t_end_time := hm 10 0;
  t_component_type := lecture; t_room_id := Some 7 |}.

(** Staff 1 again, for another batch, starting when [booked] ends. *)
Definition next_hour : timetable_row := {|
  t_id := 0; t_batch_id := 2; t_subject_id := 2; t_staff_id := 1;
  t_day_of_week := monday;
  t_start_time := hm 10 0; t_end_time := hm 11 0;
  t_component_type := tutorial; t_room_id := Some 8 |}.

(** Staff 5 is assigned to batch 1, then to batch 2. *)
Definition assignments : list staff_assignment_row :=
  [ {| sa_id := 1; sa_staff_id := 5; sa_subject_id := 1; sa_batch_id := 1 |};
    {| sa_id := 2; sa_staff_id := 5; sa_subject_id := 2; sa_batch_id := 2 |} ].

(** Batch 1 has the default windows, batch 2 a short weekend. *)
Definition batches : list batch_row :=
  [ {| b_id := 1; b_name := "Y1S1";
       weekday_start_time := Some (hm 8 30);
       weekday_end_time := Some (hm 17 30);
       weekend_start_time := Some (hm 8 30);
       weekend_end_time := Some (hm 20 30) |};
    {| b_id := 2; b_name := "Y2S1";
       weekday_start_time := Some (hm 8 30);
       weekday_end_time := Some (hm 17 30);
       weekend_start_time := Some (hm 9 0);
       weekend_end_time := Some (hm 12 0) |} ].


End SampleRows.

(** ** The three scoring helpers, as the specification describes them

    [has_consecutive_slots], [creates_gap] and [is_preferred_time] are
    called by [calculate_slot_score] and defined nowhere in the source.
    This module gives them the meaning the specification gives to the
    score terms, on the data the specification names, and leaves the
    rest of the interface open. *)

Module SpecScoring.
Import Schema Scheduler.

(** Modelled from the spec: the candidate slot of section 4.2, (day,
    start time, staff, room), with the end of the interval it would
    occupy; times are minutes since midnight. *)
Record candidate := {
  c_day : day_of_week;
  c_start : Z;
  c_end : Z;
  c_staff : Z;
  c_room : option Z }.

(** Modelled from the spec: the ScheduledSlot of section 3. *)
Record scheduled_slot := {
  s_batch : Z;
  s_subject : Z;
  s_component : component_type;
  s_staff : Z;
  s_room : option Z;
  s_day : day_of_week;
  s_start : Z;
  s_end : Z }.

(** Modelled from the spec: a staff-declared preferred time range, a
    refinement of an availability window and so bound to a day. *)
Record preferred_range := {
  p_day : day_of_week;
  p_start : Z;
  p_end : Z }.

(** Modelled from the spec: a member of staff eligible for the subject
    being placed (a StaffAssignment), with the preferred ranges that
    member declared.  The value [get_available_staff] returns for a
    subject is the list of these. *)
Record eligible := {
  e_staff : Z;
  e_subject : Z;
  e_preferred : list preferred_range }.

(** The member teaches the subject, by the list of eligible staff. *)
Definition teaches (staff : list eligible) (member subject : Z) : bool :=
  existsb (fun m => (e_staff m =? member) && (e_subject m =? subject))
          staff.

(** No gap between the candidate and the committed slot. *)
Definition touches (slot : candidate) (s : scheduled_slot) : bool :=
  (s_end s =? c_start slot) || (c_end slot =? s_start s).

(** Modelled from the spec: [has_consecutive_slots], missing from the
    source.  "The candidate is immediately adjacent (no gap) to another
    already-committed slot for the same subject and staff on the same
    day." *)
Definition has_consecutive_slots (slot : candidate)
           (staff : list eligible) (timetable : list scheduled_slot)
  : bool :=
  existsb (fun s => teaches staff (c_staff slot) (s_subject s)
                    && (s_staff s =? c_staff slot)
                    && day_eqb (s_day s) (c_day slot)
                    && touches slot s)
          timetable.

(** The committed slots of the candidate's staff member on its day. *)
Definition own_day (slot : candidate) (timetable : list scheduled_slot)
  : list scheduled_slot :=
  filter (fun s => (s_staff s =? c_staff slot)
                   && day_eqb (s_day s) (c_day slot))
         timetable.

Definition latest (l : list Z) : option Z :=
  fold_right (fun x acc =>
                Some (match acc with Some m => Z.max x m | None => x end))
             None l.

Definition earliest (l : list Z) : option Z :=
  fold_right (fun x acc =>
                Some (match acc with Some m => Z.min x m | None => x end))
             None l.

(** The idle time between the candidate and the slot of that member
    that ends last before it, and the one that starts first after it. *)
Definition gap_before (slot : candidate) (timetable : list scheduled_slot)
  : option Z :=
  option_map (fun e => c_start slot - e)
    (latest (map s_end
               (filter (fun s => s_end s <=? c_start slot)
                       (own_day slot timetable)))).

Definition gap_after (slot : candidate) (timetable : list scheduled_slot)
  : option Z :=
  option_map (fun b => b - c_end slot)
    (earliest (map s_start
                 (filter (fun s => c_end slot <=? s_start s)
                         (own_day slot timetable)))).

Definition idle (max_gap : Z) (gap : option Z) : bool :=
  match gap with
  | Some g => (0 <? g) && (g <? max_gap)
  | None => false
  end.

(** Modelled from the spec: [creates_gap], missing from the source.
    "Placing the candidate would leave the staff member with an idle
    gap (>0 and < a configured max-gap threshold) between two of their
    slots that day." *)
Definition creates_gap (max_gap : Z) (slot : candidate)
           (staff : list eligible) (timetable : list scheduled_slot)
  : bool :=
  idle max_gap (gap_before slot timetable)
  || idle max_gap (gap_after slot timetable).

(** Modelled from the spec: [is_preferred_time], missing from the
    source.  "The candidate's start time matches a staff-declared
    preferred time range." *)
Definition is_preferred_time (slot : candidate) (staff : list eligible)
  : bool :=
  existsb (fun m =>
             (e_staff m =? c_staff slot)
             && existsb (fun r => day_eqb (p_day r) (c_day slot)
                                  && (p_start r <=? c_start slot)
                                  && (c_start slot <? p_end r))
                        (e_preferred m))
          staff.

(** The part of the interface that the score does not depend on. *)
Record placement := {
  pl_Subject : Type;
  pl_Subject_eq_dec : forall x y : pl_Subject, {x = y} + {x <> y};
  pl_subject_id : pl_Subject -> Z;
  pl_StaffAssignments : Type;
  pl_Availability : Type;
  pl_Constraints : Type;
  pl_sort_subjects_by_priority : list pl_Subject -> list pl_Subject;
  pl_get_available_staff : Z -> pl_StaffAssignments -> list eligible;
  pl_get_batch_constraints : Z -> pl_Constraints;
  pl_get_component_duration : component_type -> Z;
  pl_get_available_slots :
    list eligible -> pl_Availability -> pl_Constraints -> list candidate;
  pl_is_slot_available :
    candidate -> Z -> list scheduled_slot -> bool;
  pl_assign_slot :
    pl_Subject -> component_type -> candidate ->
    list scheduled_slot -> list scheduled_slot;
  pl_can_reschedule : pl_Subject -> list scheduled_slot -> bool;
  pl_reschedule_subject :
    pl_Subject -> list scheduled_slot -> list scheduled_slot }.

(** The interface with the three helpers above; [max_gap] is the
    configured threshold, in minutes, and [slot.hour] is the hour of
    the candidate's start. *)
Definition helpers (max_gap : Z) (p : placement) : Helpers := {|
  Subject := pl_Subject p;
  Subject_eq_dec := pl_Subject_eq_dec p;
  subject_id := pl_subject_id p;
  Slot := candidate;
  hour := fun slot => c_start slot / 60;
  Staff := list eligible;
  StaffAssignments := pl_StaffAssignments p;
  Availability := pl_Availability p;
  Constraints := pl_Constraints p;
  Timetable := list scheduled_slot;
  empty_timetable := [];
  sort_subjects_by_priority := pl_sort_subjects_by_priority p;
  get_available_staff := pl_get_available_staff p;
  get_batch_constraints := pl_get_batch_constraints p;
  get_component_duration := pl_get_component_duration p;
  get_available_slots := pl_get_available_slots p;
  is_slot_available := pl_is_slot_available p;
  Scheduler.has_consecutive_slots := has_consecutive_slots;
  Scheduler.creates_gap := creates_gap max_gap;
  Scheduler.is_preferred_time := is_preferred_time;
  assign_slot := pl_assign_slot p;
  can_reschedule := pl_can_reschedule p;
  reschedule_subject := pl_reschedule_subject p |}.

(** *** The conditions of the four terms, as the specification words
    them *)






End SpecScoring.

(** ** The audit trigger *)

Module Audit.
Import Schema Sql.

(** [a != b], NULL when either side is NULL. *)
Definition sql_ne (a b : option Z) : option bool :=
  match a, b with
  | Some x, Some y => Some (negb (x =? y))
  | _, _ => None
  end.

(** Values placed in a [JSON_OBJECT]. *)
Inductive json_scalar :=
| JsonTime (t : time)
| JsonInt (n : Z)
| JsonNull.

Definition json_of_nullable (v : option Z) : json_scalar :=
  match v with
  | Some n => JsonInt n
  | None => JsonNull
  end.

(** The row written to [audit_logs], with the columns of the INSERT. *)
Record audit_log_row := {
  al_table_name : string;
  al_record_id : Z;
  al_action : string;
  al_old_values : list (string * json_scalar);
  al_new_values : list (string * json_scalar);
  al_user_id : option Z;
  al_timestamp : Z }.

(** [JSON_OBJECT('start_time', ..., 'end_time', ..., 'staff_id', ...,
    'room_id', ...)] *)
Definition audited_values (r : timetable_row)
  : list (string * json_scalar) :=
  [ ("start_time"%string, JsonTime (t_start_time r));
    ("end_time"%string, JsonTime (t_end_time r));
    ("staff_id"%string, JsonInt (t_staff_id r));
    ("room_id"%string, json_of_nullable (t_room_id r)) ].

(** The condition of the [IF]; [OR] associates to the left. *)
Definition audited_change (OLD NEW : timetable_row) : option bool :=
  sql_or
    (sql_or
       (sql_or
          (sql_ne (Some (t_start_time OLD)) (Some (t_start_time NEW)))
          (sql_ne (Some (t_end_time OLD)) (Some (t_end_time NEW))))
       (sql_ne (Some (t_staff_id OLD)) (Some (t_staff_id NEW))))
    (sql_ne (t_room_id OLD) (t_room_id NEW)).

(** [audit_timetable_changes], AFTER UPDATE ON timetables FOR EACH ROW:
    the row inserted into [audit_logs], if any.  [current_user_id] is
    the session variable [@current_user_id] and [now] the value of
    [NOW()]. *)
Definition audit_timetable_changes (current_user_id : option Z) (now : Z)
           (OLD NEW : timetable_row) : option audit_log_row :=
  if sql_true (audited_change OLD NEW)
  then Some {| al_table_name := "timetables";
               al_record_id := t_id NEW;
               al_action := "UPDATE";
               al_old_values := audited_values OLD;
               al_new_values := audited_values NEW;
               al_user_id := current_user_id;
               al_timestamp := now |}
  else None.

End Audit.

(** ** Double booking in the [timetables] table *)

Module Occupancy.
Import Schema.

(** The half-open intervals of two rows overlap. *)
Definition overlaps (a b : timetable_row) : Prop :=
  t_start_time a < t_end_time b /\ t_start_time b < t_end_time a.

(** Two rows compete for a member of staff or for a batch on a day. *)
Definition competes (a b : timetable_row) : Prop :=
  t_day_of_week a = t_day_of_week b
  /\ (t_staff_id a = t_staff_id b \/ t_batch_id a = t_batch_id b).

Definition double_booked (a b : timetable_row) : Prop :=
  competes a b /\ overlaps a b.

Definition no_double_booking (timetables : list timetable_row) : Prop :=
  ForallOrdPairs (fun a b => ~ double_booked a b) timetables.

(** The row as it is stored, under the id the table gives it. *)
Definition stored_as (id : Z) (NEW : timetable_row) : timetable_row :=
  {| t_id := id; t_batch_id := t_batch_id NEW;
     t_subject_id := t_subject_id NEW; t_staff_id := t_staff_id NEW;
     t_day_of_week := t_day_of_week NEW;
     t_start_time := t_start_time NEW; t_end_time := t_end_time NEW;
     t_component_type := t_component_type NEW;
     t_room_id := t_room_id NEW |}.

(** Every row ends no earlier than it starts. *)
Definition well_formed (r : timetable_row) : Prop :=
  t_start_time r <= t_end_time r.

End Occupancy.

(** ** More sample rows *)

Module MoreRows.
Import Schema.

(** Staff 1 again, for batch 2, on Monday 10:30-11:30. *)
Definition later_session : timetable_row := {|
  t_id := 0; t_batch_id := 2; t_subject_id := 2; t_staff_id := 1;
  t_day_of_week := monday;
  t_start_time := hm 10 30; t_end_time := hm 11 30;
  t_component_type := tutorial; t_room_id := None |}.

(** A member of staff with no assignment declares Monday 05:00-23:00. *)
Definition unassigned : availability_row := {|
  a_id := 0; a_staff_id := 9; a_day_of_week := monday;
  a_start_time := hm 5 0; a_end_time := hm 23 0;
  a_availability_type := weekday; a_is_available := true |}.

End MoreRows.

(** * Properties of the triggers *)

Module TriggerFacts.
Import Schema Sql Triggers.

Lemma day_eqb_eq a b : day_eqb a b = true <-> a = b.
Proof. destruct a, b; simpl; split; congruence. Qed.

Lemma between_spec a x y : between a x y = true <-> x <= a <= y.
Proof. unfold between. rewrite andb_true_iff, !Z.leb_le. tauto. Qed.

(** The time condition of the trigger, on rows that end no earlier than
    they start, is the intersection test for closed intervals. *)
Lemma time_clash_closed NEW r :
  t_start_time NEW <= t_end_time NEW ->
  t_start_time r <= t_end_time r ->
  time_clash NEW r = true <->
  t_start_time NEW <= t_end_time r /\ t_start_time r <= t_end_time NEW.
Proof.
  intros HN Hr. unfold time_clash.
  rewrite !orb_true_iff, !between_spec. lia.
Qed.

(** Whatever the rows, the condition holds when the half-open intervals
    overlap. *)
Lemma time_clash_of_overlap NEW r :
  t_start_time NEW < t_end_time r ->
  t_start_time r < t_end_time NEW ->
  time_clash NEW r = true.
Proof.
  intros H1 H2. unfold time_clash.
  rewrite !orb_true_iff, !between_spec. lia.
Qed.

Lemma conflict_count_positive cond timetables :
  (0 <? conflict_count cond timetables) = true <->
  exists r, In r timetables /\ cond r = true.
Proof.
  unfold conflict_count. rewrite Z.ltb_lt. split.
  - intros Hpos.
    destruct (filter cond timetables) as [|r l] eqn:E; simpl in Hpos; [lia|].
    exists r. apply filter_In. rewrite E. now left.
  - intros (r & Hin & Hc).
    assert (Hf : In r (filter cond timetables)) by (apply filter_In; auto).
    destruct (filter cond timetables); simpl in *; [tauto | lia].
Qed.

(** What an accepted insertion guarantees: no stored row with another
    id, the same day and the same staff member or the same batch
    overlaps the new row. *)
Lemma accepted_no_staff_or_batch_overlap timetables NEW r :
  check_timetable_conflicts timetables NEW = Accepted ->
  In r timetables ->
  t_id r <> t_id NEW ->
  t_day_of_week r = t_day_of_week NEW ->
  t_staff_id r = t_staff_id NEW \/ t_batch_id r = t_batch_id NEW ->
  ~ (t_start_time NEW < t_end_time r /\ t_start_time r < t_end_time NEW).
Proof.
  unfold check_timetable_conflicts.
  intros Hacc Hin Hid Hday Hkey [H1 H2].
  pose proof (time_clash_of_overlap NEW r H1 H2) as Hclash.
  assert (Hd : day_eqb (t_day_of_week r) (t_day_of_week NEW) = true)
    by now apply day_eqb_eq.
  assert (Hi : negb (t_id r =? t_id NEW) = true)
    by (apply negb_true_iff, Z.eqb_neq; exact Hid).
  destruct (0 <? conflict_count (staff_conflict NEW) timetables) eqn:Es;
    [discriminate|].
  destruct (0 <? conflict_count (batch_conflict NEW) timetables) eqn:Eb;
    [discriminate|].
  destruct Hkey as [Hs | Hb].
  - assert (Hex : exists x, In x timetables /\ staff_conflict NEW x = true).
    { exists r. split; [exact Hin|]. unfold staff_conflict.
      rewrite Hd, Hi, Hclash, Hs, Z.eqb_refl. reflexivity. }
    apply conflict_count_positive in Hex. congruence.
  - assert (Hex : exists x, In x timetables /\ batch_conflict NEW x = true).
    { exists r. split; [exact Hin|]. unfold batch_conflict.
      rewrite Hd, Hi, Hclash, Hb, Z.eqb_refl. reflexivity. }
    apply conflict_count_positive in Hex. congruence.
Qed.

(** The room column is never read by the trigger: two rows that differ
    in the room only are checked alike. *)
Lemma check_ignores_room timetables NEW room :
  check_timetable_conflicts timetables
    {| t_id := t_id NEW; t_batch_id := t_batch_id NEW;
       t_subject_id := t_subject_id NEW; t_staff_id := t_staff_id NEW;
       t_day_of_week := t_day_of_week NEW;
       t_start_time := t_start_time NEW; t_end_time := t_end_time NEW;
       t_component_type := t_component_type NEW; t_room_id := room |}
  = check_timetable_conflicts timetables NEW.
Proof. reflexivity. Qed.

(** Rows that touch at an end point clash for the trigger. *)
Lemma back_to_back_clash NEW r :
  t_start_time r <= t_end_time r ->
  t_start_time NEW <= t_end_time NEW ->
  t_end_time r = t_start_time NEW \/ t_end_time NEW = t_start_time r ->
  time_clash NEW r = true.
Proof.
  intros Hr HN Htouch. apply time_clash_closed; lia.
Qed.

(** C1. The conflict check does not cover the room namespace: with
    room 7 taken on Monday 09:00-10:00, a second session in room 7 at
    the same time, for another member of staff and another batch, is
    accepted. *)
Theorem room_double_booking_accepted :
  let r := SampleRows.booked in
  let NEW := SampleRows.same_room in
  t_room_id NEW = t_room_id r /\
  t_day_of_week NEW = t_day_of_week r /\
  (t_start_time NEW < t_end_time r /\ t_start_time r < t_end_time NEW) /\
  check_timetable_conflicts [r] NEW = Accepted.
Proof. vm_compute. repeat split; congruence. Qed.

(** C3. The overlap test is inclusive at both ends: with staff 1 booked
    on Monday 09:00-10:00, the session of staff 1 that starts at 10:00
    is refused as a staff conflict, although the half-open intervals
    do not overlap. *)
Theorem back_to_back_signalled :
  let r := SampleRows.booked in
  let NEW := SampleRows.next_hour in
  t_end_time r = t_start_time NEW /\
  ~ (t_start_time NEW < t_end_time r /\ t_start_time r < t_end_time NEW) /\
  check_timetable_conflicts [r] NEW
  = Signalled "Staff scheduling conflict detected".
Proof.
  cbv zeta. split; [reflexivity|]. split; [|reflexivity].
  vm_compute. intros [H _]. discriminate.
Qed.




End TriggerFacts.

(** * Properties of the scheduling algorithm *)

Module SchedulerFacts.
Import Schema Scheduler.

Section Facts.
Context {H : Helpers}.

(** *** Scoring *)

Lemma component_eqb_eq a b : component_eqb a b = true <-> a = b.
Proof. destruct a, b; simpl; split; congruence. Qed.

(** *** The sort of the scored candidates *)

Lemma insert_by_score_perm x l : Permutation (x :: l) (insert_by_score x l).
Proof.
  induction l as [|y l IH]; simpl; [reflexivity|].
  destruct (snd x <? snd y); [|reflexivity].
  rewrite perm_swap. now apply perm_skip.
Qed.

Lemma sort_by_score_perm l : Permutation l (sort_by_score l).
Proof.
  induction l as [|x l IH]; simpl; [constructor|].
  rewrite <- insert_by_score_perm. now apply perm_skip.
Qed.

Lemma insert_by_score_sorted x l :
  StronglySorted score_ge l -> StronglySorted score_ge (insert_by_score x l).
Proof.
  induction 1 as [|y l Hs IH Hall]; simpl.
  - repeat constructor.
  - destruct (snd x <? snd y) eqn:E.
    + apply Z.ltb_lt in E. constructor; [exact IH|].
      rewrite <- insert_by_score_perm. constructor; [unfold score_ge; lia|].
      exact Hall.
    + apply Z.ltb_ge in E. constructor; [now constructor|].
      constructor; [exact E|].
      eapply Forall_impl; [|exact Hall].
      unfold score_ge. intros; lia.
Qed.

Lemma sort_by_score_sorted l : StronglySorted score_ge (sort_by_score l).
Proof.
  induction l; simpl; [constructor | now apply insert_by_score_sorted].
Qed.

Lemma insert_by_score_stable v x l :
  filter (with_score v) (insert_by_score x l)
  = filter (with_score v) (x :: l).
Proof.
  induction l as [|y l IH]; [reflexivity|].
  simpl insert_by_score. destruct (snd x <? snd y) eqn:E; [|reflexivity].
  apply Z.ltb_lt in E. simpl in *. rewrite IH. unfold with_score.
  destruct (snd x =? v) eqn:Ex; [|reflexivity].
  apply Z.eqb_eq in Ex.
  destruct (snd y =? v) eqn:Ey; [|reflexivity].
  apply Z.eqb_eq in Ey. lia.
Qed.

Lemma sort_by_score_stable v l :
  filter (with_score v) (sort_by_score l) = filter (with_score v) l.
Proof.
  induction l as [|x l IH]; [reflexivity|].
  simpl sort_by_score. rewrite insert_by_score_stable. simpl.
  now rewrite IH.
Qed.

(** *** The search for a slot *)

Lemma find_none_iff {A} (f : A -> bool) l :
  find f l = None <-> forall x, In x l -> f x = false.
Proof.
  split.
  - intros Hn x Hin. eapply find_none; eauto.
  - induction l as [|a l IH]; simpl; [reflexivity|]. intros Hall.
    rewrite (Hall a (or_introl eq_refl)). apply IH. intros; apply Hall; auto.
Qed.

Lemma find_optimal_slot_none component staff availability constraints
      timetable :
  find_optimal_slot component staff availability constraints timetable
  = None <->
  forall slot,
    In slot (get_available_slots staff availability constraints) ->
    is_slot_available slot (get_component_duration component) timetable
    = false.
Proof.
  unfold find_optimal_slot.
  set (avail := fun p : Slot * Z =>
                  is_slot_available (fst p)
                    (get_component_duration component) timetable).
  set (scored := score_slots _ component staff timetable).
  split.
  - intros Hn slot Hin.
    destruct (find avail (sort_by_score scored)) eqn:E; [discriminate|].
    rewrite find_none_iff in E.
    apply (E (slot, calculate_slot_score slot component staff timetable)).
    eapply Permutation_in; [apply sort_by_score_perm|].
    unfold scored, score_slots. apply in_map_iff. eauto.
  - intros Hall.
    assert (E : find avail (sort_by_score scored) = None).
    { apply find_none_iff. intros [slot sc] Hin.
      eapply Permutation_in in Hin;
        [|apply Permutation_sym, sort_by_score_perm].
      unfold scored, score_slots in Hin. apply in_map_iff in Hin.
      destruct Hin as (s' & Heq & Hin). inversion Heq; subst.
      unfold avail; simpl. now apply Hall. }
    now rewrite E.
Qed.

(** *** Scheduling one subject *)

Lemma schedule_subject_placed subject batch_id staff_assignments
      availability timetable timetable' :
  schedule_subject subject batch_id staff_assignments availability
                   timetable = (true, timetable') ->
  exists slot_lecture slot_tutorial slot_lab,
    timetable'
    = assign_slot subject lab slot_lab
        (assign_slot subject tutorial slot_tutorial
           (assign_slot subject lecture slot_lecture timetable)).
Proof.
  unfold schedule_subject, schedule_components, schedule_component.
  repeat match goal with
         | |- context [find_optimal_slot ?c ?s ?a ?k ?t] =>
             destruct (find_optimal_slot c s a k t) eqn:?
         end; intros Heq; inversion Heq; eauto.
Qed.

Lemma schedule_subject_failed subject batch_id staff_assignments
      availability timetable timetable' :
  schedule_subject subject batch_id staff_assignments availability
                   timetable = (false, timetable') ->
  exists component timetable0,
    In component [lecture; tutorial; lab]
    /\ find_optimal_slot component
         (get_available_staff (subject_id subject) staff_assignments)
         availability (get_batch_constraints batch_id) timetable0 = None.
Proof.
  unfold schedule_subject, schedule_components, schedule_component.
  repeat match goal with
         | |- context [find_optimal_slot ?c ?s ?a ?k ?t] =>
             destruct (find_optimal_slot c s a k t) eqn:?
         end; intros Heq; inversion Heq;
    do 2 eexists; (split; [|eassumption]); simpl; tauto.
Qed.

(** The search that failed is the one run on the timetable that a
    failed [schedule_subject] hands on. *)
Lemma schedule_subject_failed_at subject batch_id staff_assignments
      availability timetable timetable' :
  schedule_subject subject batch_id staff_assignments availability
                   timetable = (false, timetable') ->
  exists component,
    In component [lecture; tutorial; lab]
    /\ find_optimal_slot component
         (get_available_staff (subject_id subject) staff_assignments)
         availability (get_batch_constraints batch_id) timetable' = None.
Proof.
  unfold schedule_subject, schedule_components, schedule_component.
  destruct (find_optimal_slot lecture _ _ _ timetable) as [l|] eqn:El.
  - destruct (find_optimal_slot tutorial _ _ _ _) as [t|] eqn:Et.
    + destruct (find_optimal_slot lab _ _ _ _) as [b|] eqn:Eb;
        intros Heq; inversion Heq; subst.
      exists lab. simpl. auto.
    + intros Heq; inversion Heq; subst. exists tutorial. simpl. auto.
  - intros Heq; inversion Heq; subst. exists lecture. simpl. auto.
Qed.

(** *** Resolving a single conflict *)

Lemma resolve_conflicts_single subject timetable :
  resolve_conflicts [subject] timetable
  = if can_reschedule subject timetable
    then (true, [], reschedule_subject subject timetable)
    else (false, [subject], timetable).
Proof.
  unfold resolve_conflicts. simp resolve_loop. simpl.
  destruct (can_reschedule subject timetable) eqn:E; simpl.
  - simp resolve_loop. simpl.
    destruct (Subject_eq_dec subject subject); [|congruence].
    simp resolve_loop. reflexivity.
  - simp resolve_loop. reflexivity.
Qed.

(** *** The main loop *)

(** One turn of the loop, started with no pending conflict. *)
Lemma generate_loop_step subject rest batch_id staff_assignments
      availability timetable :
  (exists timetable1,
      settled batch_id staff_assignments availability subject timetable
              timetable1
      /\ generate_loop (subject :: rest) batch_id staff_assignments
                       availability timetable []
         = generate_loop rest batch_id staff_assignments availability
                         timetable1 [])
  \/ (exists timetable1,
         schedule_subject subject batch_id staff_assignments availability
                          timetable = (false, timetable1)
         /\ can_reschedule subject timetable1 = false
         /\ generate_loop (subject :: rest) batch_id staff_assignments
                          availability timetable []
            = (None, [subject])).
Proof.
  simpl generate_loop.
  destruct (schedule_subject subject batch_id staff_assignments
                             availability timetable)
    as [success timetable1] eqn:Es.
  destruct success.
  - left. exists timetable1. split; [|reflexivity].
    destruct (schedule_subject_placed _ _ _ _ _ _ Es) as (l & t & b & ->).
    now apply settled_placed.
  - rewrite resolve_conflicts_single.
    destruct (can_reschedule subject timetable1) eqn:Ec.
    + left. exists (reschedule_subject subject timetable1).
      split; [|reflexivity]. now apply settled_rescheduled with (1 := Es).
    + right. exists timetable1. auto.
Qed.

Lemma generate_loop_cases subjects batch_id staff_assignments availability :
  forall timetable,
    (exists timetable',
        settled_all batch_id staff_assignments availability subjects
                    timetable timetable'
        /\ generate_loop subjects batch_id staff_assignments availability
                         timetable [] = (Some timetable', []))
    \/ (exists pre subject post timetable1 timetable2,
           subjects = pre ++ subject :: post
           /\ settled_all batch_id staff_assignments availability pre
                          timetable timetable1
           /\ schedule_subject subject batch_id staff_assignments
                               availability timetable1
              = (false, timetable2)
           /\ can_reschedule subject timetable2 = false
           /\ generate_loop subjects batch_id staff_assignments
                            availability timetable [] = (None, [subject])).
Proof.
  induction subjects as [|subject rest IH]; intros timetable.
  - left. exists timetable. split; [constructor | reflexivity].
  - destruct (generate_loop_step subject rest batch_id staff_assignments
                                 availability timetable)
      as [(t1 & Hset & Heq) | (t1 & Hs & Hc & Heq)].
    + rewrite Heq. destruct (IH t1)
        as [(t' & Hall & Hres)
           | (pre & s & post & ta & tb & -> & Hall & Hs & Hc & Hres)].
      * left. exists t'. split; [econstructor; eauto | exact Hres].
      * right. exists (subject :: pre), s, post, ta, tb.
        repeat split; auto. econstructor; eauto.
    + right. exists [], subject, rest, timetable, t1.
      repeat split; auto. constructor.
Qed.


(** *** One pass of [resolve_conflicts] *)

Lemma remove_first_length x l :
  (List.length (remove_first x l) <= List.length l)%nat.
Proof.
  induction l as [|y l IH]; simpl; [lia|].
  destruct (Subject_eq_dec y x); simpl; lia.
Qed.

Lemma remove_first_incl x l y : In y (remove_first x l) -> In y l.
Proof.
  induction l as [|z l IH]; simpl; [tauto|].
  destruct (Subject_eq_dec z x); simpl; tauto.
Qed.

(** The loop always ends; it calls [reschedule_subject] on listed
    subjects only, and at most once per position still to visit. *)
Lemma resolve_loop_attempts i conflicts timetable :
  exists attempts,
    (List.length attempts <= List.length conflicts - i)%nat
    /\ Forall (fun s => In s conflicts) attempts
    /\ snd (resolve_loop i conflicts timetable)
       = fold_left (fun t s => reschedule_subject s t) attempts timetable.
Proof.
  funelim (resolve_loop i conflicts timetable).
  - exists []. simpl. repeat split; [lia | constructor].
  - destruct H0 as (attempts & Hlen & Hin & Heq).
    assert (i < List.length conflicts)%nat
      by (apply nth_error_Some; congruence).
    pose proof (remove_first_length conflict conflicts).
    exists (conflict :: attempts). simpl. repeat split; [lia | | exact Heq].
    constructor; [eapply nth_error_In; eauto|].
    eapply Forall_impl; [|exact Hin]. intros a. apply remove_first_incl.
  - destruct H0 as (attempts & Hlen & Hin & Heq).
    exists attempts. repeat split; [lia | exact Hin | exact Heq].
Qed.

End Facts.

(** For every implementation of the helpers, the score is the sum of
    four terms, each present exactly when its own condition holds: 10 for a lecture starting before hour 12,
    15 when [has_consecutive_slots] holds, -5 when [creates_gap] holds,
    20 when [is_preferred_time] holds.  The score never removes a
    candidate: the search for a slot fails only when no enumerated
    candidate is available. *)
Theorem calculate_slot_score_terms :
  forall (H : Helpers) (slot : Slot) (component : component_type)
         (staff : Staff) (availability : Availability)
         (constraints : Constraints) (timetable : Timetable),
    calculate_slot_score slot component staff timetable
    = (if component_eqb component lecture && (hour slot <? 12)
       then 10 else 0)
      + (if has_consecutive_slots slot staff timetable then 15 else 0)
      + (if creates_gap slot staff timetable then -5 else 0)
      + (if is_preferred_time slot staff then 20 else 0)
    /\ (component_eqb component lecture && (hour slot <? 12) = true
        <-> component = lecture /\ hour slot < 12)
    /\ (find_optimal_slot component staff availability constraints
                          timetable = None
        <-> forall candidate,
            In candidate
               (get_available_slots staff availability constraints) ->
            is_slot_available candidate
              (get_component_duration component) timetable = false).
Proof.
  intros. split; [|split].
  - unfold calculate_slot_score.
    destruct (component_eqb component lecture && (hour slot <? 12)),
      (has_consecutive_slots slot staff timetable),
      (creates_gap slot staff timetable),
      (is_preferred_time slot staff); reflexivity.
  - rewrite andb_true_iff, component_eqb_eq, Z.ltb_lt. tauto.
  - apply find_optimal_slot_none.
Qed.

(** C10. The score is the sum of a subset of 10, 15, -5 and 20, so it
    lies between -5 and 45. *)
Theorem calculate_slot_score_range :
  forall (H : Helpers) (slot : Slot) (component : component_type)
         (staff : Staff) (timetable : Timetable),
    (exists b1 b2 b3 b4 : bool,
        calculate_slot_score slot component staff timetable
        = (if b1 then 10 else 0) + (if b2 then 15 else 0)
          + (if b3 then -5 else 0) + (if b4 then 20 else 0))
    /\ -5 <= calculate_slot_score slot component staff timetable <= 45.
Proof.
  intros. unfold calculate_slot_score. split.
  - exists (component_eqb component lecture && (hour slot <? 12)),
      (has_consecutive_slots slot staff timetable),
      (creates_gap slot staff timetable),
      (is_preferred_time slot staff).
    destruct (component_eqb component lecture && (hour slot <? 12)),
      (has_consecutive_slots slot staff timetable),
      (creates_gap slot staff timetable),
      (is_preferred_time slot staff); reflexivity.
  - destruct (component_eqb component lecture && (hour slot <? 12)),
      (has_consecutive_slots slot staff timetable),
      (creates_gap slot staff timetable),
      (is_preferred_time slot staff); simpl; lia.
Qed.

End SchedulerFacts.

(** * The run as a whole *)

Module GenerationFacts.
Import Schema Scheduler Sample SchedulerFacts.

(** C2. On a well-formed input an unplaceable component ends the run
    with no timetable.  Subject 1 has an eligible member of staff, who
    offers two free slots, and every duration is positive; the lecture
    and the tutorial take the two slots, the lab has none left,
    [can_reschedule] refuses, and the result is [None] with subject 1
    as the only conflict. *)
Lemma unplaceable_lab_aborts_run :
  let H := helpers hourly in
  eligible_staff 1 [(10, 1)] = [10]
  /\ (forall component, 0 < @get_component_duration H component)
  /\ offered_slots [10] [mon 9 10; mon 10 10] tt = [mon 9 10; mon 10 10]
  /\ @generate_timetable H 1 [1] [(10, 1)] [mon 9 10; mon 10 10]
     = (None, [1]).
Proof.
  cbv zeta. repeat split; try reflexivity.
Qed.

(** C2, as the algorithm has it.  Every run returns, in one of two
    ways.  Either every subject, in priority order, has been settled,
    and the timetable is returned with an empty conflict list.  Or the
    run stops at the first subject that [schedule_subject] cannot place
    and [can_reschedule] refuses: the subjects before it have been
    settled, it fails on the timetable they produced, it is refused on
    the timetable it leaves, and the result is no timetable and that
    subject as the only conflict. *)
Theorem generate_timetable_outcome :
  forall (H : Helpers) (batch_id : Z) (subjects : list Subject)
         (staff_assignments : StaffAssignments)
         (availability : Availability),
    (exists timetable,
        settled_all batch_id staff_assignments availability
                    (sort_subjects_by_priority subjects)
                    empty_timetable timetable
        /\ generate_timetable batch_id subjects staff_assignments
                              availability
           = (Some timetable, []))
    \/ (exists pre subject post timetable1 timetable2,
           sort_subjects_by_priority subjects = pre ++ subject :: post
           /\ settled_all batch_id staff_assignments availability pre
                          empty_timetable timetable1
           /\ schedule_subject subject batch_id staff_assignments
                               availability timetable1
              = (false, timetable2)
           /\ can_reschedule subject timetable2 = false
           /\ generate_timetable batch_id subjects staff_assignments
                                 availability
              = (None, [subject])).
Proof.
  intros. unfold generate_timetable.
  destruct (generate_loop_cases (sort_subjects_by_priority subjects)
              batch_id staff_assignments availability empty_timetable)
    as [(t' & Hall & Hres)
       | (pre & s & post & ta & tb & Hsplit & Hall & Hs & Hc & Hres)].
  - left. exists t'. split; assumption.
  - right. exists pre, s, post, ta, tb. repeat split; assumption.
Qed.



(** C8. With every duration set to zero the run is not refused: the
    three components of subject 1 are assigned and the timetable is
    returned with no conflict. *)
Lemma zero_duration_components_are_placed :
  let H := helpers (fun _ => 0) in
  @get_component_duration H lecture = 0
  /\ @generate_timetable H 1 [1] [(10, 1)]
                         [mon 9 10; mon 10 10; mon 11 10]
     = (Some [(1, lecture, mon 9 10); (1, tutorial, mon 10 10);
              (1, lab, mon 11 10)], []).
Proof. split; reflexivity. Qed.

(** C8, as the algorithm has it.  There is no check of the input ahead
    of placement.  A run returns no timetable only after every earlier
    subject has been settled, and only because the subject reached then
    could not be scheduled (the search for one of its components found
    no available candidate on the timetable the subject leaves) and
    [can_reschedule] refused it there; that subject is the single
    conflict. *)
Theorem generate_timetable_stops_only_on_unplaceable :
  forall (H : Helpers) (batch_id : Z) (subjects : list Subject)
         (staff_assignments : StaffAssignments)
         (availability : Availability),
    fst (generate_timetable batch_id subjects staff_assignments
                            availability) = None ->
    exists pre subject post timetable1 timetable2 component,
      sort_subjects_by_priority subjects = pre ++ subject :: post
      /\ settled_all batch_id staff_assignments availability pre
                     empty_timetable timetable1
      /\ schedule_subject subject batch_id staff_assignments availability
                          timetable1 = (false, timetable2)
      /\ In component [lecture; tutorial; lab]
      /\ find_optimal_slot component
           (get_available_staff (subject_id subject) staff_assignments)
           availability (get_batch_constraints batch_id) timetable2
         = None
      /\ can_reschedule subject timetable2 = false
      /\ generate_timetable batch_id subjects staff_assignments
                            availability = (None, [subject]).
Proof.
  intros H batch_id subjects staff_assignments availability.
  unfold generate_timetable.
  destruct (generate_loop_cases (sort_subjects_by_priority subjects)
              batch_id staff_assignments availability empty_timetable)
    as [(t' & Hall & Hres)
       | (pre & s & post & ta & tb & Hsplit & Hall & Hs & Hc & Hres)];
    rewrite Hres; simpl; [discriminate|]. intros _.
  destruct (schedule_subject_failed_at _ _ _ _ _ _ Hs) as (c & Hin & Hnone).
  exists pre, s, post, ta, tb, c. repeat split; assumption.
Qed.

(** Subject 1 is placed on Monday 09:00, 10:00 and 11:00; subject 2 has
    no eligible staff, so it has no candidate slot and stops the run. *)
Lemma generate_timetable_stops_only_on_unplaceable_witness :
  fst (@generate_timetable (helpers hourly) 1 [1; 2] [(10, 1)]
                           [mon 9 10; mon 10 10; mon 11 10]) = None
  /\ exists pre subject post timetable1 timetable2 component,
      [1; 2] = pre ++ subject :: post
      /\ @settled_all (helpers hourly) 1 [(10, 1)]
           [mon 9 10; mon 10 10; mon 11 10] pre [] timetable1
      /\ @schedule_subject (helpers hourly) subject 1 [(10, 1)]
           [mon 9 10; mon 10 10; mon 11 10] timetable1
         = (false, timetable2)
      /\ In component [lecture; tutorial; lab]
      /\ @find_optimal_slot (helpers hourly) component
           (eligible_staff subject [(10, 1)])
           [mon 9 10; mon 10 10; mon 11 10] tt timetable2 = None
      /\ @can_reschedule (helpers hourly) subject timetable2 = false
      /\ @generate_timetable (helpers hourly) 1 [1; 2] [(10, 1)]
           [mon 9 10; mon 10 10; mon 11 10] = (None, [subject]).
Proof.
  split; [reflexivity|].
  apply (generate_timetable_stops_only_on_unplaceable
           (helpers hourly) 1 [1; 2] [(10, 1)]
           [mon 9 10; mon 10 10; mon 11 10]).
  reflexivity.
Defined.

(** C4. The sort key is the score alone: the Tuesday and the Monday
    candidate are distinct, score the same and are both free, and the
    search returns the Tuesday one because it was enumerated first. *)
Lemma equal_scores_keep_enumeration_order :
  let H := helpers hourly in
  tue 9 10 <> mon 9 10
  /\ @calculate_slot_score H (tue 9 10) tutorial [10] []
     = @calculate_slot_score H (mon 9 10) tutorial [10] []
  /\ @is_slot_available H (mon 9 10) 60 [] = true
  /\ @find_optimal_slot H tutorial [10] [tue 9 10; mon 9 10] tt []
     = Some (tue 9 10).
Proof. repeat split; try reflexivity. discriminate. Qed.

(** C4, as the algorithm has it.  The candidates are put in the order
    of a stable sort on the score alone: the sorted list holds the same
    scored candidates, scores never increase along it, and candidates
    of one score stay in the order in which they were enumerated; the
    slot returned is the first available one of that list.  No day,
    start time, staff or room enters the comparison. *)
Theorem candidates_sorted_by_score_only :
  forall (H : Helpers) (component : component_type) (staff : Staff)
         (availability : Availability) (constraints : Constraints)
         (timetable : Timetable),
    let scored :=
      score_slots (get_available_slots staff availability constraints)
                  component staff timetable in
    Permutation scored (sort_by_score scored)
    /\ StronglySorted score_ge (sort_by_score scored)
    /\ (forall v,
           filter (with_score v) (sort_by_score scored)
           = filter (with_score v) scored)
    /\ find_optimal_slot component staff availability constraints timetable
       = option_map fst
           (find (fun p =>
                    is_slot_available (fst p)
                      (get_component_duration component) timetable)
                 (sort_by_score scored)).
Proof.
  intros. repeat split.
  - apply sort_by_score_perm.
  - apply sort_by_score_sorted.
  - intros v. apply sort_by_score_stable.
Qed.

End GenerationFacts.

(** * Further properties of the triggers *)

Module TriggerExtras.
Import Schema Sql Triggers Audit Occupancy TriggerFacts.

(** *** [check_timetable_conflicts] *)

Lemma check_accepted_iff timetables NEW :
  check_timetable_conflicts timetables NEW = Accepted <->
  forall r, In r timetables ->
            staff_conflict NEW r = false /\ batch_conflict NEW r = false.
Proof.
  unfold check_timetable_conflicts. split.
  - intros Hacc r Hin.
    destruct (0 <? conflict_count (staff_conflict NEW) timetables) eqn:Es;
      [discriminate|].
    destruct (0 <? conflict_count (batch_conflict NEW) timetables) eqn:Eb;
      [discriminate|].
    split.
    + destruct (staff_conflict NEW r) eqn:E; [|reflexivity].
      assert (Hp : (0 <? conflict_count (staff_conflict NEW) timetables)
                   = true)
        by (apply conflict_count_positive; eauto).
      congruence.
    + destruct (batch_conflict NEW r) eqn:E; [|reflexivity].
      assert (Hp : (0 <? conflict_count (batch_conflict NEW) timetables)
                   = true)
        by (apply conflict_count_positive; eauto).
      congruence.
  - intros Hall.
    destruct (0 <? conflict_count (staff_conflict NEW) timetables) eqn:Es.
    { apply conflict_count_positive in Es. destruct Es as (r & Hin & Hc).
      destruct (Hall r Hin). congruence. }
    destruct (0 <? conflict_count (batch_conflict NEW) timetables) eqn:Eb.
    { apply conflict_count_positive in Eb. destruct Eb as (r & Hin & Hc).
      destruct (Hall r Hin). congruence. }
    reflexivity.
Qed.

(** On rows that end no earlier than they start, the trigger accepts an
    insertion exactly when every stored row with another id, on the
    same day and with the same member of staff or the same batch, ends
    strictly before the new row starts or starts strictly after it
    ends. *)
Theorem check_accepts_iff_separated
        (timetables : list timetable_row) (NEW : timetable_row) :
  well_formed NEW ->
  Forall well_formed timetables ->
  check_timetable_conflicts timetables NEW = Accepted <->
  forall r,
    In r timetables ->
    t_id r <> t_id NEW ->
    t_day_of_week r = t_day_of_week NEW ->
    t_staff_id r = t_staff_id NEW \/ t_batch_id r = t_batch_id NEW ->
    t_end_time r < t_start_time NEW \/ t_end_time NEW < t_start_time r.
Proof.
  unfold well_formed. intros HN Hwf. rewrite Forall_forall in Hwf.
  rewrite check_accepted_iff. split.
  - intros Hall r Hin Hid Hday Hkey.
    destruct (Hall r Hin) as [Hs Hb].
    assert (Hd : day_eqb (t_day_of_week r) (t_day_of_week NEW) = true)
      by now apply day_eqb_eq.
    assert (Hi : negb (t_id r =? t_id NEW) = true)
      by (apply negb_true_iff, Z.eqb_neq; exact Hid).
    assert (Hclash : time_clash NEW r = false).
    { unfold staff_conflict, batch_conflict in Hs, Hb.
      rewrite Hd, Hi in Hs, Hb. destruct Hkey as [Hk | Hk].
      - rewrite Hk, Z.eqb_refl in Hs. exact Hs.
      - rewrite Hk, Z.eqb_refl in Hb. exact Hb. }
    pose proof (time_clash_closed NEW r HN (Hwf r Hin)) as Hcl.
    destruct (Z_lt_dec (t_end_time r) (t_start_time NEW)); [now left|].
    destruct (Z_lt_dec (t_end_time NEW) (t_start_time r)); [now right|].
    assert (time_clash NEW r = true) by (apply Hcl; lia). congruence.
  - intros Hsep r Hin.
    pose proof (time_clash_closed NEW r HN (Hwf r Hin)) as Hcl.
    split.
    + destruct (staff_conflict NEW r) eqn:E; [exfalso|reflexivity].
      unfold staff_conflict in E. rewrite !andb_true_iff in E.
      destruct E as [[[Hk Hd] Hi] Hc].
      apply Z.eqb_eq in Hk. apply day_eqb_eq in Hd.
      apply negb_true_iff, Z.eqb_neq in Hi. apply Hcl in Hc.
      destruct (Hsep r Hin Hi Hd (or_introl Hk)); lia.
    + destruct (batch_conflict NEW r) eqn:E; [exfalso|reflexivity].
      unfold batch_conflict in E. rewrite !andb_true_iff in E.
      destruct E as [[[Hk Hd] Hi] Hc].
      apply Z.eqb_eq in Hk. apply day_eqb_eq in Hd.
      apply negb_true_iff, Z.eqb_neq in Hi. apply Hcl in Hc.
      destruct (Hsep r Hin Hi Hd (or_intror Hk)); lia.
Qed.

Lemma check_accepts_iff_separated_witness :
  well_formed MoreRows.later_session
  /\ Forall well_formed [SampleRows.booked]
  /\ (check_timetable_conflicts [SampleRows.booked] MoreRows.later_session
      = Accepted <->
      forall r,
        In r [SampleRows.booked] ->
        t_id r <> t_id MoreRows.later_session ->
        t_day_of_week r = t_day_of_week MoreRows.later_session ->
        t_staff_id r = t_staff_id MoreRows.later_session
        \/ t_batch_id r = t_batch_id MoreRows.later_session ->
        t_end_time r < t_start_time MoreRows.later_session
        \/ t_end_time MoreRows.later_session < t_start_time r).
Proof.
  assert (H1 : well_formed MoreRows.later_session)
    by (vm_compute; discriminate).
  assert (H2 : Forall well_formed [SampleRows.booked])
    by (repeat constructor; vm_compute; discriminate).
  split; [exact H1|]. split; [exact H2|].
  exact (check_accepts_iff_separated [SampleRows.booked]
           MoreRows.later_session H1 H2).
Defined.

Lemma overlaps_sym a b : overlaps a b -> overlaps b a.
Proof. unfold overlaps. tauto. Qed.

Lemma ordered_pairs_snoc {A} (R : A -> A -> Prop) l x :
  ForallOrdPairs R l ->
  (forall a, In a l -> R a x) ->
  ForallOrdPairs R (l ++ [x]).
Proof.
  induction 1 as [|a l Ha Hl IH]; intros Hx; simpl.
  - repeat constructor.
  - constructor.
    + apply Forall_app. split; [exact Ha|].
      constructor; [apply Hx; now left | constructor].
    + apply IH. intros b Hb. apply Hx. now right.
Qed.

(** An accepted insertion keeps the table free of double booking: if no
    two stored rows of the same day and the same member of staff or
    batch overlap, and no stored row carries the id the trigger sees,
    then the same holds once the new row is stored, under whatever id
    it receives. *)
Theorem accepted_insert_keeps_no_double_booking
        (timetables : list timetable_row) (NEW : timetable_row) (id : Z) :
  no_double_booking timetables ->
  (forall r, In r timetables -> t_id r <> t_id NEW) ->
  check_timetable_conflicts timetables NEW = Accepted ->
  no_double_booking (timetables ++ [stored_as id NEW]).
Proof.
  intros Hinv Hids Hacc. apply ordered_pairs_snoc; [exact Hinv|].
  intros r Hin [[Hday Hkey] [Ho1 Ho2]]. simpl in *.
  apply (accepted_no_staff_or_batch_overlap timetables NEW r Hacc Hin
           (Hids r Hin) Hday Hkey).
  split; assumption.
Qed.

Lemma accepted_insert_keeps_no_double_booking_witness :
  no_double_booking [SampleRows.booked]
  /\ (forall r, In r [SampleRows.booked] ->
                t_id r <> t_id MoreRows.later_session)
  /\ check_timetable_conflicts [SampleRows.booked] MoreRows.later_session
     = Accepted
  /\ no_double_booking
       ([SampleRows.booked] ++ [stored_as 2 MoreRows.later_session]).
Proof.
  assert (H1 : no_double_booking [SampleRows.booked])
    by (repeat constructor).
  assert (H2 : forall r, In r [SampleRows.booked] ->
                         t_id r <> t_id MoreRows.later_session).
  { intros r [<- | []]. vm_compute. discriminate. }
  assert (H3 : check_timetable_conflicts [SampleRows.booked]
                 MoreRows.later_session = Accepted) by reflexivity.
  repeat split; try assumption.
  exact (accepted_insert_keeps_no_double_booking _ _ 2 H1 H2 H3).
Defined.

(** *** [validate_availability_times] *)

(** The trigger accepts an availability row exactly when it starts
    before it ends and does not leave the selected window on a side
    where the window has a value: a NULL bound, and so a staff member
    for whom no batch row is found, is not checked. *)
Theorem validate_availability_accepts_iff :
  forall (assignments : list staff_assignment_row)
         (batches : list batch_row) (NEW : availability_row),
    let window :=
      batch_window (a_availability_type NEW) assignments batches
                   (a_staff_id NEW) in
    validate_availability_times assignments batches NEW = Accepted <->
    a_start_time NEW < a_end_time NEW
    /\ (forall batch_start,
           fst window = Some batch_start ->
           batch_start <= a_start_time NEW)
    /\ (forall batch_end,
           snd window = Some batch_end -> a_end_time NEW <= batch_end).
Proof.
  intros. unfold validate_availability_times. fold window.
  destruct window as [[bs|] [be|]]; unfold validate_against, sql_gt, sql_lt;
    simpl;
    repeat match goal with
           | |- context [?a <? ?b] => destruct (Z.ltb_spec a b); simpl
           | |- context [?a <=? ?b] => destruct (Z.leb_spec a b); simpl
           end;
    (split;
     [ intros Heq; try discriminate; repeat split; try lia;
       intros ? Hs; inversion Hs; subst; lia
     | intros (Hlt & Hs & He);
       try specialize (Hs _ eq_refl); try specialize (He _ eq_refl);
       try reflexivity; lia ]).
Qed.

(** A staff member with no assignment is checked against no window at
    all: whatever the batches, the row is accepted as soon as it starts
    before it ends. *)
Theorem unassigned_staff_skips_window_check
        (assignments : list staff_assignment_row)
        (batches : list batch_row) (NEW : availability_row) :
  limit1_batch_id assignments (a_staff_id NEW) = None ->
  validate_availability_times assignments batches NEW
  = if a_end_time NEW <=? a_start_time NEW
    then Signalled "Start time must be before end time"
    else Accepted.
Proof.
  intros Hnone. unfold validate_availability_times, batch_window.
  rewrite Hnone. reflexivity.
Qed.

Lemma unassigned_staff_skips_window_check_witness :
  limit1_batch_id SampleRows.assignments (a_staff_id MoreRows.unassigned)
  = None
  /\ validate_availability_times SampleRows.assignments SampleRows.batches
       MoreRows.unassigned
     = if a_end_time MoreRows.unassigned <=? a_start_time MoreRows.unassigned
       then Signalled "Start time must be before end time"
       else Accepted.
Proof.
  split; [reflexivity|].
  exact (unassigned_staff_skips_window_check SampleRows.assignments
           SampleRows.batches MoreRows.unassigned eq_refl).
Defined.

(** *** [audit_timetable_changes] *)

(** An update leaves no audit row exactly when start time, end time and
    staff are unchanged and the room either is unchanged or is NULL
    before or after the update.  So giving a room to a session that had
    none, or taking its room away, is not audited, and neither is a
    change of day, batch, subject or component type. *)
Theorem audit_skipped_iff :
  forall (current_user_id : option Z) (now : Z) (OLD NEW : timetable_row),
    audit_timetable_changes current_user_id now OLD NEW = None <->
    t_start_time OLD = t_start_time NEW
    /\ t_end_time OLD = t_end_time NEW
    /\ t_staff_id OLD = t_staff_id NEW
    /\ (t_room_id OLD = None \/ t_room_id NEW = None
        \/ t_room_id OLD = t_room_id NEW).
Proof.
  intros. unfold audit_timetable_changes, audited_change, sql_ne.
  destruct (Z.eqb_spec (t_start_time OLD) (t_start_time NEW));
    destruct (Z.eqb_spec (t_end_time OLD) (t_end_time NEW));
    destruct (Z.eqb_spec (t_staff_id OLD) (t_staff_id NEW));
    destruct (t_room_id OLD) as [ro|], (t_room_id NEW) as [rn|]; simpl;
    try destruct (Z.eqb_spec ro rn); simpl;
    (split;
     [ intros Heq; try discriminate; repeat split; auto;
       subst; auto
     | intros (H1 & H2 & H3 & H4); try reflexivity; try contradiction;
       destruct H4 as [H4 | [H4 | H4]]; congruence ]).
Qed.

End TriggerExtras.

(** * Further properties of the scheduling algorithm *)

Module SchedulerExtras.
Import Schema Scheduler SchedulerFacts.

Section Facts.
Context {H : Helpers}.

(** *** The slot chosen by [find_optimal_slot] *)

Lemma find_split {A} (f : A -> bool) l x :
  find f l = Some x ->
  exists a b, l = a ++ x :: b /\ f x = true
              /\ forall y, In y a -> f y = false.
Proof.
  induction l as [|z l IH]; simpl; [discriminate|].
  destruct (f z) eqn:Ez.
  - intros Heq; inversion Heq; subst. exists [], l. simpl. tauto.
  - intros Hf. destruct (IH Hf) as (a & b & -> & Hx & Ha).
    exists (z :: a), b. simpl. repeat split; auto.
    intros y [<- | Hy]; auto.
Qed.

Lemma find_skip {A} (f : A -> bool) a l :
  (forall y, In y a -> f y = false) -> find f (a ++ l) = find f l.
Proof.
  induction a as [|z a IH]; simpl; intros Ha; [reflexivity|].
  rewrite (Ha z (or_introl eq_refl)). apply IH. auto.
Qed.

Lemma sorted_tail_below (a : list (Slot * Z)) p b :
  StronglySorted score_ge (a ++ p :: b) -> Forall (score_ge p) b.
Proof.
  induction a as [|z a IH]; simpl; intros Hs; inversion Hs; subst; auto.
Qed.

Lemma find_scored (avail : Slot -> bool) (score : Slot -> Z) v slots :
  find (fun p => avail (fst p))
       (filter (with_score v) (map (fun s => (s, score s)) slots))
  = option_map (fun s => (s, score s))
      (find (fun s => avail s && (score s =? v)) slots).
Proof.
  induction slots as [|s l IH]; simpl; [reflexivity|].
  unfold with_score at 1. simpl.
  destruct (score s =? v); simpl.
  - destruct (avail s); simpl; [reflexivity | exact IH].
  - rewrite andb_false_r. exact IH.
Qed.

Lemma in_score_slots slots component staff timetable p :
  In p (score_slots slots component staff timetable) <->
  In (fst p) slots
  /\ snd p = calculate_slot_score (fst p) component staff timetable.
Proof.
  unfold score_slots. rewrite in_map_iff. split.
  - intros (s & <- & Hin). simpl. auto.
  - intros [Hin Hs]. exists (fst p). destruct p; simpl in *. subst. auto.
Qed.

(** The slot returned is an enumerated candidate, was available, has
    the highest score of all available candidates, and is the first of
    the available candidates of that score in the order in which they
    were enumerated. *)
Theorem find_optimal_slot_choice
        (component : component_type) (staff : Staff)
        (availability : Availability) (constraints : Constraints)
        (timetable : Timetable) (slot : Slot) :
  find_optimal_slot component staff availability constraints timetable
  = Some slot ->
  let duration := get_component_duration component in
  let slots := get_available_slots staff availability constraints in
  let score := fun s => calculate_slot_score s component staff timetable in
  In slot slots
  /\ is_slot_available slot duration timetable = true
  /\ (forall s, In s slots ->
                is_slot_available s duration timetable = true ->
                score s <= score slot)
  /\ find (fun s => is_slot_available s duration timetable
                    && (score s =? score slot)) slots
     = Some slot.
Proof.
  intros Hfind duration slots score. unfold find_optimal_slot in Hfind.
  fold duration slots in Hfind.
  set (scored := score_slots slots component staff timetable) in *.
  set (avail := fun p : Slot * Z =>
                  is_slot_available (fst p) duration timetable) in *.
  destruct (find avail (sort_by_score scored)) as [p|] eqn:E;
    [|discriminate].
  simpl in Hfind. inversion Hfind; subst slot. clear Hfind.
  destruct (find_split _ _ _ E) as (a & b & Hsplit & Hp & Ha).
  assert (Hin : In p scored).
  { eapply Permutation_in;
      [apply Permutation_sym, sort_by_score_perm|].
    rewrite Hsplit. apply in_or_app. right. now left. }
  apply in_score_slots in Hin. destruct Hin as [Hin Hsc].
  split; [exact Hin|]. split; [exact Hp|]. split.
  - intros s Hs Hav.
    assert (Hq : In (s, score s) (sort_by_score scored)).
    { eapply Permutation_in; [apply sort_by_score_perm|].
      apply in_score_slots. simpl. auto. }
    rewrite Hsplit in Hq. apply in_app_or in Hq.
    destruct Hq as [Hq | [Hq | Hq]].
    + apply Ha in Hq. unfold avail in Hq. simpl in Hq. congruence.
    + fold (score (fst p)) in Hsc. rewrite Hq. simpl. lia.
    + pose proof (sort_by_score_sorted scored) as Hsorted.
      rewrite Hsplit in Hsorted. apply sorted_tail_below in Hsorted.
      rewrite Forall_forall in Hsorted. specialize (Hsorted _ Hq).
      unfold score_ge in Hsorted. simpl in Hsorted.
      fold (score (fst p)) in Hsc. lia.
  - pose proof (sort_by_score_stable (snd p) scored) as Hst.
    rewrite Hsplit, filter_app in Hst. simpl in Hst.
    unfold with_score at 2 in Hst. rewrite Z.eqb_refl in Hst.
    assert (Hf : find avail (filter (with_score (snd p)) scored)
                 = Some p).
    { rewrite <- Hst. rewrite find_skip.
      - simpl. fold avail. rewrite Hp. reflexivity.
      - intros y Hy. apply filter_In in Hy. apply Ha. tauto. }
    pose proof (find_scored
                  (fun s => is_slot_available s duration timetable)
                  score (snd p) slots) as Hfs.
    change (find avail (filter (with_score (snd p)) scored)
            = option_map (fun s => (s, score s))
                (find (fun s => is_slot_available s duration timetable
                                && (score s =? snd p)) slots)) in Hfs.
    rewrite Hfs in Hf. clear Hfs.
    fold (score (fst p)) in Hsc. rewrite <- Hsc.
    destruct (find _ slots) as [s|]; [|discriminate].
    simpl in Hf. inversion Hf. reflexivity.
Qed.

Lemma find_optimal_slot_some component staff availability constraints
      timetable slot :
  find_optimal_slot component staff availability constraints timetable
  = Some slot ->
  In slot (get_available_slots staff availability constraints)
  /\ is_slot_available slot (get_component_duration component) timetable
     = true.
Proof.
  unfold find_optimal_slot.
  destruct (find _ (sort_by_score _)) as [p|] eqn:E; [|discriminate].
  simpl. intros Heq; inversion Heq; subst.
  apply find_some in E. destruct E as [Hin Hav]. split; [|exact Hav].
  eapply Permutation_in in Hin;
    [|apply Permutation_sym, sort_by_score_perm].
  apply in_score_slots in Hin. tauto.
Qed.

(** *** [schedule_subject] *)

(** When a subject is scheduled, each of its three slots was enumerated
    for the staff of the subject and was available in the timetable as
    it stood when the slot was chosen: the lecture against the incoming
    timetable, the tutorial after the lecture was assigned, the lab
    after both. *)
Theorem schedule_subject_slots_available
        (subject : Subject) (batch_id : Z)
        (staff_assignments : StaffAssignments)
        (availability : Availability) (timetable timetable' : Timetable) :
  schedule_subject subject batch_id staff_assignments availability
                   timetable = (true, timetable') ->
  let slots :=
    get_available_slots
      (get_available_staff (subject_id subject) staff_assignments)
      availability (get_batch_constraints batch_id) in
  exists slot_lecture slot_tutorial slot_lab,
    let timetable1 := assign_slot subject lecture slot_lecture timetable in
    let timetable2 :=
      assign_slot subject tutorial slot_tutorial timetable1 in
    timetable' = assign_slot subject lab slot_lab timetable2
    /\ In slot_lecture slots /\ In slot_tutorial slots /\ In slot_lab slots
    /\ is_slot_available slot_lecture (get_component_duration lecture)
                         timetable = true
    /\ is_slot_available slot_tutorial (get_component_duration tutorial)
                         timetable1 = true
    /\ is_slot_available slot_lab (get_component_duration lab)
                         timetable2 = true.
Proof.
  intros Hs slots.
  unfold schedule_subject, schedule_components, schedule_component in Hs.
  destruct (find_optimal_slot lecture _ _ _ timetable) as [l|] eqn:El;
    [|discriminate].
  destruct (find_optimal_slot tutorial _ _ _ _) as [t|] eqn:Et;
    [|discriminate].
  destruct (find_optimal_slot lab _ _ _ _) as [b|] eqn:Eb;
    [|discriminate].
  inversion Hs; subst. exists l, t, b.
  apply find_optimal_slot_some in El, Et, Eb. cbv zeta. tauto.
Qed.

(** A subject that cannot be scheduled is not rolled back: the
    components placed before the one that failed stay assigned.  The
    timetable handed on is the incoming one when the lecture failed,
    holds the lecture when the tutorial failed, and holds the lecture
    and the tutorial when the lab failed. *)
Theorem schedule_subject_failure_keeps_earlier
        (subject : Subject) (batch_id : Z)
        (staff_assignments : StaffAssignments)
        (availability : Availability) (timetable timetable' : Timetable) :
  schedule_subject subject batch_id staff_assignments availability
                   timetable = (false, timetable') ->
  let staff := get_available_staff (subject_id subject) staff_assignments in
  let constraints := get_batch_constraints batch_id in
  (find_optimal_slot lecture staff availability constraints timetable
   = None /\ timetable' = timetable)
  \/ (exists slot_lecture,
         find_optimal_slot lecture staff availability constraints timetable
         = Some slot_lecture
         /\ find_optimal_slot tutorial staff availability constraints
              (assign_slot subject lecture slot_lecture timetable) = None
         /\ timetable' = assign_slot subject lecture slot_lecture timetable)
  \/ (exists slot_lecture slot_tutorial,
         find_optimal_slot lecture staff availability constraints timetable
         = Some slot_lecture
         /\ find_optimal_slot tutorial staff availability constraints
              (assign_slot subject lecture slot_lecture timetable)
            = Some slot_tutorial
         /\ find_optimal_slot lab staff availability constraints
              (assign_slot subject tutorial slot_tutorial
                 (assign_slot subject lecture slot_lecture timetable))
            = None
         /\ timetable'
            = assign_slot subject tutorial slot_tutorial
                (assign_slot subject lecture slot_lecture timetable)).
Proof.
  intros Hs staff constraints.
  unfold schedule_subject, schedule_components, schedule_component in Hs.
  fold staff constraints in Hs.
  destruct (find_optimal_slot lecture staff availability constraints
              timetable) as [l|] eqn:El.
  - destruct (find_optimal_slot tutorial staff availability constraints
                (assign_slot subject lecture l timetable)) as [t|] eqn:Et.
    + destruct (find_optimal_slot lab staff availability constraints
                  (assign_slot subject tutorial t
                     (assign_slot subject lecture l timetable)))
        as [b|] eqn:Eb; [discriminate|].
      inversion Hs; subst. right; right. exists l, t. auto.
    + inversion Hs; subst. right; left. exists l. auto.
  - inversion Hs; subst. left. auto.
Qed.

(** *** [resolve_conflicts] *)

Lemma remove_first_present x l :
  In x l -> S (List.length (remove_first x l)) = List.length l.
Proof.
  induction l as [|y l IH]; simpl; [tauto|].
  destruct (Subject_eq_dec y x); simpl; [reflexivity|].
  intros [Hy | Hx]; [congruence|]. now rewrite IH.
Qed.

Lemma remove_first_perm x l :
  In x l -> Permutation l (x :: remove_first x l).
Proof.
  induction l as [|y l IH]; simpl; [tauto|].
  destruct (Subject_eq_dec y x) as [->|Hne]; [reflexivity|].
  intros [Hy | Hx]; [congruence|].
  rewrite perm_swap. apply perm_skip. now apply IH.
Qed.

Lemma resolve_loop_pass i conflicts timetable :
  exists attempts,
    Permutation conflicts
                (attempts ++ fst (resolve_loop i conflicts timetable))
    /\ (List.length attempts
        + List.length (fst (resolve_loop i conflicts timetable))
        = List.length conflicts)%nat
    /\ (2 * List.length attempts <= List.length conflicts - i + 1)%nat
    /\ incl (fst (resolve_loop i conflicts timetable)) conflicts
    /\ Forall (fun s => In s conflicts) attempts
    /\ snd (resolve_loop i conflicts timetable)
       = fold_left (fun t s => reschedule_subject s t) attempts timetable.
Proof.
  funelim (resolve_loop i conflicts timetable).
  - exists []. simpl. repeat split;
      [reflexivity | lia | apply incl_refl | constructor].
  - match goal with
    | IH : exists _, _ |- _ =>
        destruct IH
          as (attempts & Hperm & Hlen & Hhalf & Hincl & Hin & Heq)
    end.
    assert (Hi : (i < List.length conflicts)%nat)
      by (apply nth_error_Some; congruence).
    assert (Hc : In conflict conflicts) by (eapply nth_error_In; eauto).
    pose proof (remove_first_present conflict conflicts Hc) as Hrm.
    exists (conflict :: attempts). simpl. repeat split.
    + eapply Permutation_trans;
        [apply (remove_first_perm conflict conflicts Hc)|].
      apply perm_skip. exact Hperm.
    + lia.
    + lia.
    + intros x Hx. eapply remove_first_incl, Hincl, Hx.
    + constructor; [exact Hc|].
      eapply Forall_impl; [|exact Hin]. intros a. apply remove_first_incl.
    + exact Heq.
  - match goal with
    | IH : exists _, _ |- _ =>
        destruct IH
          as (attempts & Hperm & Hlen & Hhalf & Hincl & Hin & Heq)
    end.
    assert (Hi : (i < List.length conflicts)%nat)
      by (apply nth_error_Some; congruence).
    exists attempts. repeat split; auto. lia.
Qed.

(** One call of [resolve_conflicts] goes through the list once.  It
    runs [reschedule_subject] on listed subjects only, one after the
    other on the timetable; the subjects so treated and the subjects
    left in the list make up, together and with their multiplicities,
    exactly the list passed in; and since each removal makes the
    traversal skip the next entry, at most every second entry is
    treated. *)
Theorem resolve_conflicts_one_pass :
  forall (conflicts : list Subject) (timetable : Timetable),
  exists attempts,
    let '(_, conflicts', timetable') :=
      resolve_conflicts conflicts timetable in
    Permutation conflicts (attempts ++ conflicts')
    /\ (List.length attempts + List.length conflicts'
        = List.length conflicts)%nat
    /\ (2 * List.length attempts <= List.length conflicts + 1)%nat
    /\ incl conflicts' conflicts
    /\ Forall (fun s => In s conflicts) attempts
    /\ timetable'
       = fold_left (fun t s => reschedule_subject s t) attempts timetable.
Proof.
  intros. unfold resolve_conflicts.
  destruct (resolve_loop_pass 0 conflicts timetable)
    as (attempts & Hperm & Hlen & Hhalf & Hincl & Hin & Heq).
  exists attempts.
  destruct (resolve_loop 0 conflicts timetable) as [c' t']. simpl in *.
  repeat split; auto. lia.
Qed.

Lemma resolve_loop_unfold i conflicts timetable :
  resolve_loop i conflicts timetable
  = match nth_error conflicts i with
    | None => (conflicts, timetable)
    | Some conflict =>
        if can_reschedule conflict timetable
        then resolve_loop (S i) (remove_first conflict conflicts)
                          (reschedule_subject conflict timetable)
        else resolve_loop (S i) conflicts timetable
    end.
Proof.
  funelim (resolve_loop i conflicts timetable);
    try match goal with
        | E : nth_error _ _ = _ |- _ => rewrite E
        end;
    try match goal with
        | E : can_reschedule _ _ = _ |- _ => rewrite E
        end;
    reflexivity.
Qed.

Lemma resolve_loop_leaves_some i conflicts timetable :
  (1 <= i)%nat -> conflicts <> [] ->
  fst (resolve_loop i conflicts timetable) <> [].
Proof.
  funelim (resolve_loop i conflicts timetable); intros Hi Hne.
  - simpl. exact Hne.
  - match goal with IH : _ -> _ -> _ |- _ => apply IH; [lia|] end.
    assert (Hlt : (i < List.length conflicts)%nat)
      by (apply nth_error_Some; congruence).
    assert (Hc : In conflict conflicts) by (eapply nth_error_In; eauto).
    pose proof (remove_first_present conflict conflicts Hc).
    intros Hnil. rewrite Hnil in *. simpl in *. lia.
  - match goal with IH : _ -> _ -> _ |- _ => apply IH; [lia | exact Hne] end.
Qed.

(** [resolve_conflicts] reports success only for an empty list or for a
    single conflict that [can_reschedule] accepts.  With two or more
    conflicts pending it reports failure whatever can be rescheduled,
    because the entry after a removed one is never visited. *)
Theorem resolve_conflicts_succeeds_iff :
  forall (conflicts : list Subject) (timetable : Timetable),
    fst (fst (resolve_conflicts conflicts timetable)) = true <->
    conflicts = []
    \/ exists subject,
        conflicts = [subject] /\ can_reschedule subject timetable = true.
Proof.
  intros conflicts timetable.
  destruct conflicts as [|x [|y rest]].
  - unfold resolve_conflicts. simp resolve_loop. simpl. tauto.
  - rewrite resolve_conflicts_single.
    destruct (can_reschedule x timetable) eqn:E; simpl.
    + split; [|reflexivity]. intros _. right. exists x. auto.
    + split; [discriminate|].
      intros [Hf | (s & Hs & Hc)]; [discriminate|].
      inversion Hs; subst. congruence.
  - split.
    + unfold resolve_conflicts.
      destruct (resolve_loop 0 (x :: y :: rest) timetable) as [c' t'] eqn:E.
      simpl. intros Hz. exfalso.
      assert (Hne : fst (resolve_loop 0 (x :: y :: rest) timetable) <> []).
      { rewrite resolve_loop_unfold. simpl.
        destruct (can_reschedule x timetable) eqn:Ec.
        - destruct (Subject_eq_dec x x); [|congruence].
          apply resolve_loop_leaves_some; [lia | discriminate].
        - apply resolve_loop_leaves_some; [lia | discriminate]. }
      rewrite E in Hne. simpl in Hne.
      destruct c'; [congruence | discriminate].
    + intros [Hf | (s & Hs & _)]; discriminate.
Qed.

End Facts.

End SchedulerExtras.

(** * The further properties on concrete runs *)

Module SchedulerRuns.
Import Schema Scheduler Sample SchedulerExtras.

(** Two free candidates of equal score: the one enumerated first is
    returned, and it is among the offered slots and available. *)
Lemma find_optimal_slot_choice_witness :
  @find_optimal_slot (helpers hourly) tutorial [10]
                     [tue 9 10; mon 9 10] tt [] = Some (tue 9 10)
  /\ In (tue 9 10) (offered_slots [10] [tue 9 10; mon 9 10] tt)
  /\ slot_free (tue 9 10) 60 [] = true.
Proof.
  split; [reflexivity|].
  destruct (@find_optimal_slot_choice (helpers hourly) tutorial [10]
              [tue 9 10; mon 9 10] tt [] (tue 9 10) eq_refl)
    as (Hin & Hav & _).
  split; [exact Hin | exact Hav].
Defined.

(** Subject 1 is given Monday 09:00, 10:00 and 11:00; each slot was
    free when it was chosen. *)
Lemma schedule_subject_slots_available_witness :
  @schedule_subject (helpers hourly) 1 1 [(10, 1)]
                    [mon 9 10; mon 10 10; mon 11 10] []
  = (true, [(1, lecture, mon 9 10); (1, tutorial, mon 10 10);
            (1, lab, mon 11 10)])
  /\ exists slot_lecture slot_tutorial slot_lab,
      [(1, lecture, mon 9 10); (1, tutorial, mon 10 10);
       (1, lab, mon 11 10)]
      = [(1, lecture, slot_lecture); (1, tutorial, slot_tutorial);
         (1, lab, slot_lab)]
      /\ slot_free slot_lecture 60 [] = true
      /\ slot_free slot_tutorial 60 [(1, lecture, slot_lecture)] = true
      /\ slot_free slot_lab 60
           [(1, lecture, slot_lecture); (1, tutorial, slot_tutorial)]
         = true.
Proof.
  split; [reflexivity|].
  destruct (@schedule_subject_slots_available (helpers hourly) 1 1
              [(10, 1)] [mon 9 10; mon 10 10; mon 11 10] [] _ eq_refl)
    as (l & t & b & Heq & _ & _ & _ & Hl & Ht & Hb).
  exists l, t, b. repeat split; assumption.
Defined.

(** With two slots on offer the lab of subject 1 cannot be placed; its
    lecture and its tutorial stay in the timetable handed on. *)
Lemma schedule_subject_failure_keeps_earlier_witness :
  @schedule_subject (helpers hourly) 1 1 [(10, 1)]
                    [mon 9 10; mon 10 10] []
  = (false, [(1, lecture, mon 9 10); (1, tutorial, mon 10 10)])
  /\ ([(1, lecture, mon 9 10); (1, tutorial, mon 10 10)] = []
      \/ (exists slot_lecture,
             [(1, lecture, mon 9 10); (1, tutorial, mon 10 10)]
             = [(1, lecture, slot_lecture)])
      \/ (exists slot_lecture slot_tutorial,
             [(1, lecture, mon 9 10); (1, tutorial, mon 10 10)]
             = [(1, lecture, slot_lecture); (1, tutorial, slot_tutorial)])).
Proof.
  split; [reflexivity|].
  destruct (@schedule_subject_failure_keeps_earlier (helpers hourly) 1 1
              [(10, 1)] [mon 9 10; mon 10 10] [] _ eq_refl)
    as [[_ Heq] | [(l & _ & _ & Heq) | (l & t & _ & _ & _ & Heq)]].
  - left. exact Heq.
  - right; left. exists l. exact Heq.
  - right; right. exists l, t. exact Heq.
Defined.

End SchedulerRuns.

(** * The component type in the score *)

Module ScoreFacts.
Import Schema Scheduler.

(** The component type enters the score through the morning bonus
    alone: for one slot, staff and timetable a tutorial and a lab score
    the same, and a lecture scores 10 more when the slot starts before
    hour 12 and the same otherwise. *)
Theorem score_differs_by_morning_bonus_only :
  forall (H : Helpers) (slot : Slot) (staff : Staff)
         (timetable : Timetable),
    calculate_slot_score slot tutorial staff timetable
    = calculate_slot_score slot lab staff timetable
    /\ calculate_slot_score slot lecture staff timetable
       = calculate_slot_score slot tutorial staff timetable
         + (if hour slot <? 12 then 10 else 0).
Proof.
  intros. unfold calculate_slot_score. simpl.
  destruct (hour slot <? 12),
    (has_consecutive_slots slot staff timetable),
    (creates_gap slot staff timetable),
    (is_preferred_time slot staff); split; reflexivity.
Qed.

End ScoreFacts.

(** * The score with the helpers of the specification *)

Module SpecScoringFacts.
Import Schema Scheduler SpecScoring.












End SpecScoringFacts.
